(** * Nas.js: the Synology download-station client

    A shallow embedding of [src/models/Nas.js].  JavaScript values are an
    inductive type, objects are finite maps from property names to values,
    and the methods of class [Nas] are computations in a small monad that
    threads the instance, the console and the list of requests handed to
    axios, and that can complete normally or by throwing. *)

From stdpp Require Import base strings gmap pretty.
From Stdlib Require Import ZArith Ascii.

#[local] Set Warnings "-register-all".
Local Open Scope Z_scope.
Local Open Scope string_scope.

(** ** JavaScript values *)

(** The values that flow through the client: what a caller passes in, what
    a parsed response body holds, what a method resolves to.  Numbers are
    the integers: the program compares them with integer literals, tests
    them for truthiness and prints them, nothing else. *)
Inductive value :=
| JUndefined
| JNull
| JBool (b : bool)
| JNum (n : Z)
| JStr (s : string)
| JArr (elems : list value)
| JObj (fields : gmap string value).

(** ToBoolean, as applied by [if (e)]. *)
Definition truthy (v : value) : bool :=
  match v with
  | JUndefined | JNull => false
  | JBool b => b
  | JNum n => negb (Z.eqb n 0)
  | JStr s => negb (String.eqb s "")
  | JArr _ | JObj _ => true
  end.

(** ToString, as applied by [string + e]. *)
Fixpoint to_string (v : value) : string :=
  match v with
  | JUndefined => "undefined"
  | JNull => "null"
  | JBool true => "true"
  | JBool false => "false"
  | JNum n => pretty n
  | JStr s => s
  | JArr elems =>
      let elem x :=
        match x with
        | JUndefined | JNull => ""
        | _ => to_string x
        end in
      (fix join l :=
         match l with
         | [] => ""
         | [x] => elem x
         | x :: l' => elem x +:+ "," +:+ join l'
         end) elems
  | JObj _ => "[object Object]"
  end.

(** The property names the program reads off a response. *)
Inductive key := k_success | k_data | k_error | k_code | k_sid | k_tasks.

Definition key_name (k : key) : string :=
  match k with
  | k_success => "success"
  | k_data => "data"
  | k_error => "error"
  | k_code => "code"
  | k_sid => "sid"
  | k_tasks => "tasks"
  end.

(** What a thrown or rejected completion carries: the TypeError of a
    property read, the reason axios rejects with, the TypeError of
    [new URL]. *)
Inductive exn :=
| TypeError (target : value) (reading : key)
| Rejection (reason : value)
| InvalidURL (input : string).

(** [v.k]: reading a property of [undefined] or [null] throws a TypeError;
    an object yields its own property or [undefined]; every other value
    has none of the properties named by [key]. *)
Definition get_prop (v : value) (k : key) : exn + value :=
  match v with
  | JUndefined | JNull => inl (TypeError v k)
  | JObj fields => inr (default JUndefined (fields !! key_name k))
  | _ => inr JUndefined
  end.

(** ** URLs, requests and replies *)

(** A parsed [URL] object of Node's [url] module, by the components the
    class reads. *)
Record URL := {
  origin : string;
  protocol : string;
  host : string;
  hostname : string;
  port : string
}.

(** The request configuration handed to [axios.request].  [httpsAgent] is
    kept by its one option. *)
Record https_Agent := { rejectUnauthorized : bool }.

Record AxiosConfig := {
  baseURL : string;
  url : string;
  params : gmap string value;
  httpsAgent : https_Agent
}.

Record response := { status : Z; data : value }.

(** How the promise returned by [axios.request] settles. *)
Inductive settled :=
| Fulfilled (r : response)
| Rejected (reason : value).

(** ** The instance and the world around it *)

Record Nas := { _url : URL; _sid : value }.

(** One argument of [console.log]. *)
Inductive logged :=
| LogValue (v : value)
| LogError (e : exn).

Record World := {
  self : Nas;
  console : list logged;
  requests : list AxiosConfig
}.

Definition set_sid (v : value) (w : World) : World :=
  {| self := {| _url := _url (self w); _sid := v |};
     console := console w;
     requests := requests w |}.

Definition add_log (l : logged) (w : World) : World :=
  {| self := self w; console := console w ++ [l]; requests := requests w |}.

Definition add_request (c : AxiosConfig) (w : World) : World :=
  {| self := self w; console := console w; requests := requests w ++ [c] |}.

(** ** Computations *)

(** A computation runs in a world and completes normally with a result or
    abruptly with what was thrown; a promise that is awaited is such a
    computation, fulfilment being normal completion and rejection a throw. *)
Definition JS (A : Type) : Type := World -> (exn + A) * World.

Definition ret {A} (a : A) : JS A := fun w => (inr a, w).

Definition throw {A} (e : exn) : JS A := fun w => (inl e, w).

Definition bind {A B} (m : JS A) (f : A -> JS B) : JS B :=
  fun w =>
    match m w with
    | (inr a, w') => f a w'
    | (inl e, w') => (inl e, w')
    end.

(** [p.then(f)] *)
Definition then_ {A B} (p : JS A) (f : A -> JS B) : JS B := bind p f.

(** [p.catch(g)] *)
Definition catch_ {A} (p : JS A) (g : exn -> JS A) : JS A :=
  fun w =>
    match p w with
    | (inr a, w') => (inr a, w')
    | (inl e, w') => g e w'
    end.

Definition lift {A} (r : exn + A) : JS A := fun w => (r, w).

Definition this : JS Nas := fun w => (inr (self w), w).

Definition assign_sid (v : value) : JS unit := fun w => (inr tt, set_sid v w).

Definition console_log (l : logged) : JS unit := fun w => (inr tt, add_log l w).

Notation "'do' x <- m ; k" := (bind m (fun x => k))
  (at level 10, x name, m at level 100, k at level 200).
Notation "'exec' m ; k" := (bind m (fun _ => k))
  (at level 10, m at level 100, k at level 200).

(** [e.k] as a step of a computation. *)
Definition read (e : value) (k : key) : JS value := lift (get_prop e k).

(** ** class Nas *)

Section Client.

(** [new URL(s)] of Node: the parsed URL, or [None] where it throws. *)
Variable URL_parse : string -> option URL.

(** The network behind [axios.request]: how the request with a given
    configuration settles. *)
Variable transport : AxiosConfig -> settled.

Definition new_URL (s : string) : exn + URL :=
  match URL_parse s with
  | Some u => inr u
  | None => inl (InvalidURL s)
  end.

(** What [new Nas(url)] can be given: a [URL] object or any other value,
    [undefined] when the argument is left out. *)
Inductive ctor_arg :=
| OfURL (u : URL)
| OfValue (v : value).

Definition constructor (url : ctor_arg) : exn + Nas :=
  match url with
  | OfURL u => inr {| _url := u; _sid := JStr "" |}
  | OfValue (JStr s) =>
      match new_URL s with
      | inr u => inr {| _url := u; _sid := JStr "" |}
      | inl e => inl e
      end
  | OfValue _ =>
      match new_URL "https://localhost:5001" with
      | inr u => inr {| _url := u; _sid := JStr "" |}
      | inl e => inl e
      end
  end.

Definition axios_request (config : AxiosConfig) : JS response :=
  fun w =>
    (match transport config with
     | Fulfilled r => inr r
     | Rejected reason => inl (Rejection reason)
     end, add_request config w).

(** [new https.Agent({ rejectUnauthorized: false })] *)
Definition agent : https_Agent := {| rejectUnauthorized := false |}.

(** A parameter with a default value takes it when the argument is
    [undefined]. *)
Definition or_default (arg dflt : value) : value :=
  match arg with
  | JUndefined => dflt
  | _ => arg
  end.

Definition http_error (r : response) : logged :=
  LogValue (JStr ("Http error code: " +:+ to_string (JNum (status r)))).

Definition info_config (nas : Nas) : AxiosConfig :=
  {| baseURL := origin (_url nas);
     url := "/webapi/query.cgi";
     params := list_to_map
       [("api", JStr "SYNO.API.Info");
        ("version", JNum 1);
        ("method", JStr "query");
        ("query", JStr "all")];
     httpsAgent := agent |}.

Definition info : JS value :=
  do nas <- this;
  let config := info_config nas in
  catch_
    (then_ (axios_request config) (fun response =>
       if Z.eqb (status response) 200 then
         do ok <- read (data response) k_success;
         if truthy ok then
           read (data response) k_data
         else
           do err <- read (data response) k_error;
           do c <- read err k_code;
           exec console_log (LogValue (JStr ("API Error Code: " +:+ to_string c)));
           ret JUndefined
       else
         exec console_log (http_error response);
         ret JUndefined))
    (fun error => exec console_log (LogError error); ret JUndefined).

Definition login_config (nas : Nas) (nas_username nas_password : value)
  : AxiosConfig :=
  {| baseURL := origin (_url nas);
     url := "/webapi/auth.cgi";
     params := list_to_map
       [("api", JStr "SYNO.API.Auth");
        ("version", JNum 6);
        ("session", JStr "DownloadStation");
        ("format", JStr "sid");
        ("method", JStr "login");
        ("account", nas_username);
        ("passwd", nas_password)];
     httpsAgent := agent |}.

(** The [switch] of [login] over the error code; [case] compares with
    [===]. *)
Definition login_error (c : value) : option string :=
  match c with
  | JNum 400 => Some "No such account or incorrect password"
  | JNum 401 => Some "Account disabled"
  | JNum 402 => Some "Permission denied"
  | JNum 403 => Some "2-step verification code required"
  | JNum 404 => Some "Failed to authenticate 2-step verification code"
  | _ => None
  end.

Definition login (nas_username nas_password : value) : JS value :=
  do nas <- this;
  let config := login_config nas nas_username nas_password in
  catch_
    (then_ (axios_request config) (fun response =>
       if Z.eqb (status response) 200 then
         do ok <- read (data response) k_success;
         if truthy ok then
           do d <- read (data response) k_data;
           do s <- read d k_sid;
           exec assign_sid s;
           ret (JBool true)
         else
           do err <- read (data response) k_error;
           do c <- read err k_code;
           match login_error c with
           | Some msg => exec console_log (LogValue (JStr msg)); ret JUndefined
           | None => ret JUndefined
           end
       else
         exec console_log (http_error response);
         ret JUndefined))
    (fun error => exec console_log (LogError error); ret JUndefined).

Definition logout_config (nas : Nas) : AxiosConfig :=
  {| baseURL := origin (_url nas);
     url := "/webapi/auth.cgi";
     params := list_to_map
       [("api", JStr "SYNO.API.Auth");
        ("version", JNum 1);
        ("session", JStr "DownloadStation");
        ("method", JStr "logout")];
     httpsAgent := agent |}.

Definition logout : JS value :=
  do nas <- this;
  let config := logout_config nas in
  catch_
    (then_ (axios_request config) (fun response =>
       if Z.eqb (status response) 200 then
         read (data response) k_success
       else
         ret JUndefined))
    (fun error => exec console_log (LogError error); ret JUndefined).

Definition getTaskList_config (nas : Nas) (additional : value) : AxiosConfig :=
  {| baseURL := origin (_url nas);
     url := "/webapi/DownloadStation/task.cgi";
     params := list_to_map
       [("_sid", _sid nas);
        ("api", JStr "SYNO.DownloadStation.Task");
        ("version", JNum 1);
        ("method", JStr "list");
        ("additional", additional)];
     httpsAgent := agent |}.

Definition getTaskList (offset limit additional : value) : JS value :=
  let offset := or_default offset (JNum 0) in
  let limit := or_default limit (JNum (-1)) in
  let additional := or_default additional (JStr "") in
  do nas <- this;
  let config := getTaskList_config nas additional in
  catch_
    (then_ (axios_request config) (fun response =>
       if Z.eqb (status response) 200 then
         do ok <- read (data response) k_success;
         if truthy ok then
           do d <- read (data response) k_data;
           read d k_tasks
         else
           ret JUndefined
       else
         exec console_log (http_error response);
         ret JUndefined))
    (fun error => exec console_log (LogError error); ret JUndefined).

Definition getTaskInfo_config (nas : Nas) (id additional : value)
  : AxiosConfig :=
  {| baseURL := origin (_url nas);
     url := "/webapi/DownloadStation/task.cgi";
     params := list_to_map
       [("_sid", _sid nas);
        ("api", JStr "SYNO.DownloadStation.Task");
        ("version", JNum 1);
        ("method", JStr "getinfo");
        ("id", id);
        ("additional", additional)];
     httpsAgent := agent |}.

Definition getTaskInfo (id additional : value) : JS value :=
  let additional := or_default additional (JStr "") in
  do nas <- this;
  let config := getTaskInfo_config nas id additional in
  catch_
    (then_ (axios_request config) (fun response =>
       if Z.eqb (status response) 200 then
         do ok <- read (data response) k_success;
         if truthy ok then
           ret (data response)
         else
           ret JUndefined
       else
         exec console_log (http_error response);
         ret JUndefined))
    (fun error => exec console_log (LogError error); ret JUndefined).

Definition createTask_config (nas : Nas) (uri : value) : AxiosConfig :=
  {| baseURL := origin (_url nas);
     url := "/webapi/DownloadStation/task.cgi";
     params := list_to_map
       [("_sid", _sid nas);
        ("api", JStr "SYNO.DownloadStation.Task");
        ("version", JNum 3);
        ("method", JStr "create");
        ("uri", uri)];
     httpsAgent := agent |}.

Definition createTask (uri : value) : JS value :=
  do nas <- this;
  let config := createTask_config nas uri in
  catch_
    (then_ (axios_request config) (fun response =>
       if Z.eqb (status response) 200 then
         ret (data response)
       else
         ret JUndefined))
    (fun error => exec console_log (LogError error); ret JUndefined).

Definition deleteTask_config (nas : Nas) (id force_complete : value)
  : AxiosConfig :=
  {| baseURL := origin (_url nas);
     url := "/webapi/DownloadStation/task.cgi";
     params := list_to_map
       [("_sid", _sid nas);
        ("api", JStr "SYNO.DownloadStation.Task");
        ("version", JNum 1);
        ("method", JStr "delete");
        ("id", id);
        ("force_complete", force_complete)];
     httpsAgent := agent |}.

Definition deleteTask (id force_complete : value) : JS value :=
  let force_complete := or_default force_complete (JBool false) in
  do nas <- this;
  let config := deleteTask_config nas id force_complete in
  catch_
    (then_ (axios_request config) (fun response =>
       if Z.eqb (status response) 200 then
         ret (data response)
       else
         ret JUndefined))
    (fun error => exec console_log (LogError error); ret JUndefined).

Definition pauseTask_config (nas : Nas) (taskId : value) : AxiosConfig :=
  {| baseURL := origin (_url nas);
     url := "/webapi/DownloadStation/task.cgi";
     params := list_to_map
       [("_sid", _sid nas);
        ("api", JStr "SYNO.DownloadStation.Task");
        ("version", JNum 1);
        ("method", JStr "pause");
        ("id", taskId)];
     httpsAgent := agent |}.

Definition pauseTask (taskId : value) : JS value :=
  do nas <- this;
  let config := pauseTask_config nas taskId in
  catch_
    (then_ (axios_request config) (fun response =>
       if Z.eqb (status response) 200 then
         ret (data response)
       else
         ret JUndefined))
    (fun error => exec console_log (LogError error); ret JUndefined).

Definition resumeTask_config (nas : Nas) (taskId : value) : AxiosConfig :=
  {| baseURL := origin (_url nas);
     url := "/webapi/DownloadStation/task.cgi";
     params := list_to_map
       [("_sid", _sid nas);
        ("api", JStr "SYNO.DownloadStation.Task");
        ("version", JNum 1);
        ("method", JStr "resume");
        ("id", taskId)];
     httpsAgent := agent |}.

Definition resumeTask (taskId : value) : JS value :=
  do nas <- this;
  let config := resumeTask_config nas taskId in
  catch_
    (then_ (axios_request config) (fun response =>
       if Z.eqb (status response) 200 then
         ret (data response)
       else
         ret JUndefined))
    (fun error => exec console_log (LogError error); ret JUndefined).

(** The getters [host], [portocol], [hostname] and [port]. *)
Definition get_host : JS value :=
  do nas <- this; ret (JStr (host (_url nas))).

Definition get_portocol : JS value :=
  do nas <- this; ret (JStr (protocol (_url nas))).

Definition get_hostname : JS value :=
  do nas <- this; ret (JStr (hostname (_url nas))).

Definition get_port : JS value :=
  do nas <- this; ret (JStr (port (_url nas))).

(** ** Calls *)

(** A call of one of the nine asynchronous methods, with its arguments. *)
Inductive call :=
| Call_info
| Call_login (nas_username nas_password : value)
| Call_logout
| Call_getTaskList (offset limit additional : value)
| Call_getTaskInfo (id additional : value)
| Call_createTask (uri : value)
| Call_deleteTask (id force_complete : value)
| Call_pauseTask (taskId : value)
| Call_resumeTask (taskId : value).

Definition invoke (c : call) : JS value :=
  match c with
  | Call_info => info
  | Call_login u p => login u p
  | Call_logout => logout
  | Call_getTaskList o l a => getTaskList o l a
  | Call_getTaskInfo i a => getTaskInfo i a
  | Call_createTask u => createTask u
  | Call_deleteTask i f => deleteTask i f
  | Call_pauseTask t => pauseTask t
  | Call_resumeTask t => resumeTask t
  end.

(** The configuration a call hands to [axios.request]. *)
Definition config_of (nas : Nas) (c : call) : AxiosConfig :=
  match c with
  | Call_info => info_config nas
  | Call_login u p => login_config nas u p
  | Call_logout => logout_config nas
  | Call_getTaskList _ _ a => getTaskList_config nas (or_default a (JStr ""))
  | Call_getTaskInfo i a => getTaskInfo_config nas i (or_default a (JStr ""))
  | Call_createTask u => createTask_config nas u
  | Call_deleteTask i f =>
      deleteTask_config nas i (or_default f (JBool false))
  | Call_pauseTask t => pauseTask_config nas t
  | Call_resumeTask t => resumeTask_config nas t
  end.

Definition is_login (c : call) : bool :=
  match c with
  | Call_login _ _ => true
  | _ => false
  end.

Definition is_command (c : call) : bool :=
  match c with
  | Call_createTask _ | Call_deleteTask _ _ | Call_pauseTask _
  | Call_resumeTask _ => true
  | _ => false
  end.

Definition is_task_call (c : call) : bool :=
  match c with
  | Call_getTaskList _ _ _ | Call_getTaskInfo _ _ | Call_createTask _
  | Call_deleteTask _ _ | Call_pauseTask _ | Call_resumeTask _ => true
  | _ => false
  end.

End Client.

(** ** A reference URL parser *)

(** [URL_parse_ref] follows the URL standard on a fragment of its input
    language: the strings [scheme://hostname] and [scheme://hostname:port]
    with scheme [http] or [https], a hostname that is a dotted quad of
    decimal numbers or a dot-separated domain of lower-case letters and
    digits whose last label starts with a letter, and a decimal port.  On
    these it returns the components Node computes.  A string without a
    scheme is rejected, as Node rejects it.  The theorems below hold for
    every parser; this one instantiates them on concrete URLs. *)

Definition is_lower (c : ascii) : bool :=
  let n := Ascii.N_of_ascii c in (97 <=? n)%N && (n <=? 122)%N.

Definition is_digit (c : ascii) : bool :=
  let n := Ascii.N_of_ascii c in (48 <=? n)%N && (n <=? 57)%N.

Fixpoint all_chars (f : ascii -> bool) (s : string) : bool :=
  match s with
  | EmptyString => true
  | String c s' => f c && all_chars f s'
  end.

Fixpoint strip_prefix (p s : string) : option string :=
  match p with
  | EmptyString => Some s
  | String a p' =>
      match s with
      | String b s' => if Ascii.eqb a b then strip_prefix p' s' else None
      | EmptyString => None
      end
  end.

(** The text before the first [sep], and the text after it if there is
    one. *)
Fixpoint break_at (sep : ascii) (s : string) : string * option string :=
  match s with
  | EmptyString => (EmptyString, None)
  | String c s' =>
      if Ascii.eqb c sep then (EmptyString, Some s')
      else let '(before, after) := break_at sep s' in (String c before, after)
  end.

Fixpoint labels (s : string) : list string :=
  match s with
  | EmptyString => [EmptyString]
  | String c s' =>
      if Ascii.eqb c "." then EmptyString :: labels s'
      else
        match labels s' with
        | l :: ls => String c l :: ls
        | [] => [String c EmptyString]
        end
  end.

Fixpoint decimal_value (acc : N) (s : string) : N :=
  match s with
  | EmptyString => acc
  | String c s' => decimal_value (10 * acc + (Ascii.N_of_ascii c - 48))%N s'
  end.

(** A decimal numeral without leading zeros. *)
Definition decimal (s : string) : option N :=
  match s with
  | EmptyString => None
  | String c s' =>
      if all_chars is_digit s && (negb (Ascii.eqb c "0") || String.eqb s' "")
      then Some (decimal_value 0 s)
      else None
  end.

Definition is_ipv4 (ls : list string) : bool :=
  (length ls =? 4)%nat &&
  forallb (fun l => match decimal l with
                    | Some n => (n <=? 255)%N
                    | None => false
                    end) ls.

Definition is_domain (ls : list string) : bool :=
  forallb (fun l => negb (String.eqb l "") &&
                    all_chars (fun c => is_lower c || is_digit c) l) ls &&
  match last ls with
  | Some (String c _) => is_lower c
  | _ => false
  end.

Definition valid_hostname (h : string) : bool :=
  let ls := labels h in is_ipv4 ls || is_domain ls.

Definition special_scheme (s : string) : option (string * N * string) :=
  match strip_prefix "https://" s with
  | Some rest => Some ("https", 443%N, rest)
  | None =>
      match strip_prefix "http://" s with
      | Some rest => Some ("http", 80%N, rest)
      | None => None
      end
  end.

Definition make_URL (scheme hostname port : string) : URL :=
  let host :=
    if String.eqb port "" then hostname else hostname +:+ ":" +:+ port in
  {| origin := scheme +:+ "://" +:+ host;
     protocol := scheme +:+ ":";
     host := host;
     hostname := hostname;
     port := port |}.

Definition URL_parse_ref (s : string) : option URL :=
  match special_scheme s with
  | None => None
  | Some (scheme, default_port, rest) =>
      let '(h, p) := break_at ":" rest in
      if valid_hostname h then
        match p with
        | None => Some (make_URL scheme h "")
        | Some digits =>
            match decimal digits with
            | Some n =>
                if (n <=? 65535)%N then
                  Some (make_URL scheme h
                          (if (n =? default_port)%N then "" else pretty n))
                else None
            | None => None
            end
        end
      else None
  end.

(** ** Vocabulary of the statements *)

(** The success flag of the envelope in a reply, as [if
    (response.data.success)] tests it; a body that has no properties to
    read counts as unsuccessful. *)
Definition success_flag (r : response) : bool :=
  match get_prop (data r) k_success with
  | inr v => truthy v
  | inl _ => false
  end.

(** [v.k1.k2...]: the chain of property reads, or what the first failing
    read throws. *)
Fixpoint get_path (v : value) (ks : list key) : exn + value :=
  match ks with
  | [] => inr v
  | k :: ks' =>
      match get_prop v k with
      | inr v' => get_path v' ks'
      | inl e => inl e
      end
  end.

(** [m] leaves the instance as it found it. *)
Definition keeps_self {A} (m : JS A) : Prop :=
  forall w, self (snd (m w)) = self w.

(** [m] completes normally in every world. *)
Definition never_throws {A} (m : JS A) : Prop :=
  forall w, exists a, fst (m w) = inr a.

(** ** Sample worlds and networks *)

Definition localhost_5001 : URL :=
  {| origin := "https://localhost:5001"; protocol := "https:";
     host := "localhost:5001"; hostname := "localhost"; port := "5001" |}.

Definition address_5001 : URL :=
  {| origin := "https://192.168.1.241:5001"; protocol := "https:";
     host := "192.168.1.241:5001"; hostname := "192.168.1.241";
     port := "5001" |}.

Definition fresh_nas : Nas := {| _url := localhost_5001; _sid := JStr "" |}.

Definition world_of (nas : Nas) : World :=
  {| self := nas; console := []; requests := [] |}.

(** A network that answers every request with the same reply. *)
Definition always (reply : settled) : AxiosConfig -> settled := fun _ => reply.

Definition envelope (fields : list (string * value)) : value :=
  JObj (list_to_map fields).

Definition ok_with (body : value) : settled :=
  Fulfilled {| status := 200; data := body |}.

Definition logged_in_nas : Nas :=
  {| _url := localhost_5001; _sid := JStr "abc" |}.

(** [{success: true, data: {sid: s}}] *)
Definition sid_envelope (s : string) : value :=
  envelope [("success", JBool true); ("data", envelope [("sid", JStr s)])].

Definition granted_with_sid (s : string) : settled := ok_with (sid_envelope s).

(** [{success: true}]: the login is granted but no payload is sent. *)
Definition granted_without_data : settled :=
  ok_with (envelope [("success", JBool true)]).

(** [{success: true, data: {total: n, tasks: ts}}] *)
Definition tasks_envelope (ts : list value) : value :=
  envelope
    [("success", JBool true);
     ("data", envelope [("total", JNum (Z.of_nat (length ts)));
                        ("tasks", JArr ts)])].

Definition two_tasks : list value :=
  [envelope [("id", JStr "dbid_100"); ("status", JStr "downloading")];
   envelope [("id", JStr "dbid_101"); ("status", JStr "paused")]].

(** [{success: false, error: {code: c}}] *)
Definition error_envelope (c : Z) : value :=
  envelope [("success", JBool false); ("error", envelope [("code", JNum c)])].

(** [{success: true, data: {"SYNO.API.Auth": {minVersion: 1, maxVersion: 6,
    path: "auth.cgi"}}}] *)
Definition api_catalogue : value :=
  envelope
    [("success", JBool true);
     ("data",
      envelope
        [("SYNO.API.Auth",
          envelope [("minVersion", JNum 1); ("maxVersion", JNum 6);
                    ("path", JStr "auth.cgi")])])].

(** ** The helper [api] *)

(** The characters [querystring.escape] leaves as they are: the letters,
    the digits and [! ' ( ) * - . _ ~]. *)
Definition unreserved (c : ascii) : bool :=
  let n := Ascii.N_of_ascii c in
  ((48 <=? n) && (n <=? 57) || (65 <=? n) && (n <=? 90) ||
   (97 <=? n) && (n <=? 122) ||
   (n =? 33) || (39 <=? n) && (n <=? 42) || (n =? 45) || (n =? 46) ||
   (n =? 95) || (n =? 126))%N.

Definition hex_digit (n : N) : ascii :=
  Ascii.ascii_of_N (if (n <? 10)%N then 48 + n else 55 + n)%N.

(** [querystring.escape], on a string taken as the bytes of its UTF-8
    encoding: every byte that is not unreserved becomes [%] and its two
    upper-case hexadecimal digits. *)
Fixpoint escape (s : string) : string :=
  match s with
  | EmptyString => EmptyString
  | String c s' =>
      if unreserved c then String c (escape s')
      else
        let n := Ascii.N_of_ascii c in
        String "%" (String (hex_digit (n / 16)) (String (hex_digit (n mod 16))
          (escape s')))
  end.

Section Api.

(** [querystring.stringify] of Node: the query string of an object. *)
Variable stringify : value -> string.

Definition api (path query : value) : JS value :=
  do nas <- this;
  let apistring :=
    origin (_url nas) +:+ "/webapi/" +:+ to_string path +:+ "?" +:+
    stringify query in
  ret (JStr (escape apistring)).

End Api.

(** ** Sessions *)

(** A network is how requests settle at the moment of a call. *)
Definition network : Type := AxiosConfig -> settled.

(** The world after a caller has awaited the calls of a script one after
    the other, each against the network of its moment. *)
Fixpoint run_session (script : list (network * call)) (w : World) : World :=
  match script with
  | [] => w
  | (transport, c) :: rest => run_session rest (snd (invoke transport c w))
  end.

(** The methods whose handler has an [else] branch that logs the status of
    a reply that is not 200. *)
Definition reports_status (c : call) : bool :=
  match c with
  | Call_info | Call_login _ _ | Call_getTaskList _ _ _
  | Call_getTaskInfo _ _ => true
  | _ => false
  end.

(** The value of a hexadecimal digit, for reading an escaped string back. *)
Definition hex_value (c : ascii) : N :=
  let n := Ascii.N_of_ascii c in
  (if n <? 58 then n - 48 else n - 55)%N.

(** Percent-decoding, the inverse of [escape] on what it produces. *)
Fixpoint unescape (s : string) : string :=
  match s with
  | EmptyString => EmptyString
  | String c s' =>
      if Ascii.eqb c "%" then
        match s' with
        | String h (String l rest) =>
            String (Ascii.ascii_of_N (16 * hex_value h + hex_value l)) (unescape rest)
        | _ => String c s'
        end
      else String c (unescape s')
  end.

(** * Properties *)

(** ** The model on concrete inputs *)

Example parse_localhost :
  URL_parse_ref "https://localhost:5001" =
  Some {| origin := "https://localhost:5001"; protocol := "https:";
          host := "localhost:5001"; hostname := "localhost";
          port := "5001" |}.
Proof. vm_compute. reflexivity. Qed.

Example parse_address :
  URL_parse_ref "https://192.168.1.241:5001" =
  Some {| origin := "https://192.168.1.241:5001"; protocol := "https:";
          host := "192.168.1.241:5001"; hostname := "192.168.1.241";
          port := "5001" |}.
Proof. vm_compute. reflexivity. Qed.

Example parse_default_port :
  URL_parse_ref "https://nas.local:443" =
  Some {| origin := "https://nas.local"; protocol := "https:";
          host := "nas.local"; hostname := "nas.local"; port := "" |}.
Proof. vm_compute. reflexivity. Qed.

Example parse_no_scheme : URL_parse_ref "not a url" = None.
Proof. reflexivity. Qed.

Example to_string_array :
  to_string (JArr [JNum 1; JNull; JStr "x"; JArr [JBool true; JNum (-2)]]) =
  "1,,x,true,-2".
Proof. vm_compute. reflexivity. Qed.

(** A refused login logs the reason and resolves [undefined]; the session
    token stays empty. *)
Example login_refused :
  let out :=
    login (always (ok_with (error_envelope 400))) (JStr "admin") (JStr "wrong")
      (world_of fresh_nas) in
  fst out = inr JUndefined /\
  self (snd out) = fresh_nas /\
  console (snd out) =
    [LogValue (JStr "No such account or incorrect password")].
Proof. vm_compute. repeat split. Qed.

(** A login granted without payload ends in the handler of [catch]. *)
Example login_without_data :
  let out :=
    login (always granted_without_data) (JStr "admin") (JStr "secret")
      (world_of fresh_nas) in
  fst out = inr JUndefined /\
  self (snd out) = fresh_nas /\
  console (snd out) = [LogError (TypeError JUndefined k_sid)].
Proof. vm_compute. repeat split. Qed.

Example info_http_error :
  let out :=
    info (always (Fulfilled {| status := 404; data := JStr "Not Found" |}))
      (world_of fresh_nas) in
  fst out = inr JUndefined /\
  console (snd out) = [LogValue (JStr "Http error code: 404")].
Proof. vm_compute. repeat split. Qed.

Example info_api_error :
  console (snd (info (always (ok_with (error_envelope 101)))
                  (world_of fresh_nas))) =
  [LogValue (JStr "API Error Code: 101")].
Proof. vm_compute. reflexivity. Qed.

Example logout_keeps_sid :
  let out :=
    logout (always (ok_with (envelope [("success", JBool true)])))
      (world_of logged_in_nas) in
  fst out = inr (JBool true) /\ _sid (self (snd out)) = JStr "abc".
Proof. vm_compute. repeat split. Qed.

(** ** Reasoning about computations *)

Lemma keeps_self_ret {A} (a : A) : keeps_self (ret a).
Proof. intros w. reflexivity. Qed.

Lemma keeps_self_lift {A} (r : exn + A) : keeps_self (lift r).
Proof. intros w. reflexivity. Qed.

Lemma keeps_self_read v k : keeps_self (read v k).
Proof. apply keeps_self_lift. Qed.

Lemma keeps_self_this : keeps_self this.
Proof. intros w. reflexivity. Qed.

Lemma keeps_self_console_log l : keeps_self (console_log l).
Proof. intros w. reflexivity. Qed.

Lemma keeps_self_axios_request transport config :
  keeps_self (axios_request transport config).
Proof. intros w. reflexivity. Qed.

Lemma keeps_self_bind {A B} (m : JS A) (f : A -> JS B) :
  keeps_self m -> (forall a, keeps_self (f a)) -> keeps_self (bind m f).
Proof.
  intros Hm Hf w. unfold bind. specialize (Hm w).
  destruct (m w) as [[e | a] w']; simpl in *.
  - exact Hm.
  - rewrite Hf. exact Hm.
Qed.

Lemma keeps_self_then {A B} (p : JS A) (f : A -> JS B) :
  keeps_self p -> (forall a, keeps_self (f a)) -> keeps_self (then_ p f).
Proof. apply keeps_self_bind. Qed.

Lemma keeps_self_catch {A} (p : JS A) (g : exn -> JS A) :
  keeps_self p -> (forall e, keeps_self (g e)) -> keeps_self (catch_ p g).
Proof.
  intros Hp Hg w. unfold catch_. specialize (Hp w).
  destruct (p w) as [[e | a] w']; simpl in *.
  - rewrite Hg. exact Hp.
  - exact Hp.
Qed.

Create HintDb js_frame.
#[export] Hint Resolve keeps_self_ret keeps_self_lift keeps_self_read
  keeps_self_this keeps_self_console_log keeps_self_axios_request : js_frame.

(** Decompose a computation along its binds, handlers and branches. *)
Ltac frame_step :=
  first
    [ apply keeps_self_catch
    | apply keeps_self_then
    | apply keeps_self_bind
    | progress intros
    | match goal with
      | |- keeps_self (if ?b then _ else _) => destruct b
      | |- keeps_self (match ?x with _ => _ end) => destruct x
      end ].

Ltac frame := repeat frame_step; auto with js_frame.

Lemma never_throws_ret {A} (a : A) : never_throws (ret a).
Proof. intros w. exists a. reflexivity. Qed.

Lemma never_throws_console_log l : never_throws (console_log l).
Proof. intros w. exists tt. reflexivity. Qed.

Lemma never_throws_this : never_throws this.
Proof. intros w. eexists. reflexivity. Qed.

Lemma never_throws_bind {A B} (m : JS A) (f : A -> JS B) :
  never_throws m -> (forall a, never_throws (f a)) -> never_throws (bind m f).
Proof.
  intros Hm Hf w. unfold bind. destruct (Hm w) as [a Ha].
  destruct (m w) as [[e | a'] w']; simpl in Ha; [discriminate |].
  apply Hf.
Qed.

(** A handler that never throws makes the whole chain resolve. *)
Lemma never_throws_catch {A} (p : JS A) (g : exn -> JS A) :
  (forall e, never_throws (g e)) -> never_throws (catch_ p g).
Proof.
  intros Hg w. unfold catch_.
  destruct (p w) as [[e | a] w'].
  - apply Hg.
  - exists a. reflexivity.
Qed.

Lemma log_and_resolve_undefined e :
  never_throws (exec console_log (LogError e); ret JUndefined).
Proof.
  apply never_throws_bind; intros; [apply never_throws_console_log | apply never_throws_ret].
Qed.

Lemma invoke_keeps_self transport c :
  is_login c = false -> keeps_self (invoke transport c).
Proof.
  destruct c; simpl; try discriminate; intros _;
    unfold info, logout, getTaskList, getTaskInfo, createTask, deleteTask,
      pauseTask, resumeTask; frame.
Qed.

Lemma invoke_never_throws transport c : never_throws (invoke transport c).
Proof.
  destruct c; simpl;
    unfold info, login, logout, getTaskList, getTaskInfo, createTask,
      deleteTask, pauseTask, resumeTask;
    (apply never_throws_bind; [apply never_throws_this | intros nas]);
    apply never_throws_catch; apply log_and_resolve_undefined.
Qed.

(** Run a call down to the case analysis on how the request settles and
    on what the reply holds. *)
Ltac js_unfold :=
  cbv beta iota zeta delta
    [invoke info login logout getTaskList getTaskInfo createTask deleteTask
     pauseTask resumeTask config_of then_ catch_ bind ret throw read lift
     this axios_request console_log assign_sid fst snd] in *.

Ltac js_cases :=
  repeat (case_match; simplify_eq; js_unfold).

(** Every call hands exactly one configuration to axios. *)
Lemma invoke_requests transport c w :
  requests (snd (invoke transport c w)) =
  (requests w ++ [config_of (self w) c])%list.
Proof.
  destruct c; js_unfold; js_cases; reflexivity.
Qed.

(** What a call resolves to when axios rejects. *)
Lemma invoke_rejected transport c w reason :
  transport (config_of (self w) c) = Rejected reason ->
  fst (invoke transport c w) = inr JUndefined.
Proof.
  intros H. destruct c; js_unfold; rewrite H; reflexivity.
Qed.

(** ** The parameters of the task requests *)

(** A key that is not among those of an object literal. *)
Ltac absent_key :=
  cbv beta iota delta
    [params info_config login_config logout_config getTaskList_config
     getTaskInfo_config createTask_config deleteTask_config pauseTask_config
     resumeTask_config];
  cbn [list_to_map foldr uncurry fst snd];
  repeat (rewrite lookup_insert_ne by discriminate);
  apply lookup_empty.

Lemma getTaskList_params nas additional :
  dom (params (getTaskList_config nas additional)) =
    ({[ "_sid"; "api"; "version"; "method"; "additional" ]} : gset string).
Proof.
  unfold getTaskList_config; cbn [params list_to_map foldr uncurry fst snd].
  rewrite !dom_insert_L, dom_empty_L.
  apply set_eq; intros x.
  rewrite !elem_of_union, elem_of_empty. tauto.
Qed.

(** C1. Whatever [offset] and [limit] are, [getTaskList] runs the same:
    it issues one request, whose parameters are exactly [_sid], [api],
    [version], [method] and [additional], with no [offset] and no [limit]
    among them, so that the request issued and the result resolved do not
    depend on the two arguments. *)
Theorem getTaskList_ignores_offset_and_limit
    transport (offset limit offset' limit' additional : value) (w : World) :
  getTaskList transport offset limit additional w =
    getTaskList transport offset' limit' additional w /\
  exists config,
    requests (snd (getTaskList transport offset limit additional w)) =
      (requests w ++ [config])%list /\
    dom (params config) =
      ({[ "_sid"; "api"; "version"; "method"; "additional" ]} : gset string) /\
    params config !! "offset" = None /\
    params config !! "limit" = None.
Proof.
  split; [reflexivity |].
  exists (getTaskList_config (self w) (or_default additional (JStr ""))).
  split; [exact (invoke_requests transport (Call_getTaskList offset limit additional) w) |].
  split; [apply getTaskList_params |].
  split; absent_key.
Qed.

Lemma task_call_sid nas c :
  is_task_call c = true ->
  params (config_of nas c) !! "_sid" = Some (_sid nas).
Proof.
  destruct c; simpl; try discriminate; intros _; apply lookup_insert_eq.
Qed.

Lemma logout_no_sid nas : params (logout_config nas) !! "_sid" = None.
Proof.
  absent_key.
Qed.

(** ** login *)

(** C2, as stated, fails: a reply with status 200 and a true success flag
    does not always make [login] resolve [true].  When the envelope has no
    [data], reading [response.data.data.sid] throws, the handler of
    [catch] logs the error and the call resolves [undefined]. *)
Lemma login_success_flag_is_not_enough :
  ~ (forall transport u p w r,
       transport (login_config (self w) u p) = Fulfilled r ->
       status r = 200 ->
       success_flag r = true ->
       fst (login transport u p w) = inr (JBool true)).
Proof.
  intros H.
  specialize (H (always granted_without_data) (JStr "admin") (JStr "secret")
                (world_of fresh_nas) _ eq_refl eq_refl eq_refl).
  vm_compute in H. discriminate H.
Qed.

(** When the login is granted and the [sid] can be read, it is stored and
    the call resolves [true]. *)
Lemma login_granted transport u p w r s :
  transport (login_config (self w) u p) = Fulfilled r ->
  status r = 200 ->
  success_flag r = true ->
  get_path (data r) [k_data; k_sid] = inr s ->
  login transport u p w =
    (inr (JBool true), set_sid s (add_request (login_config (self w) u p) w)).
Proof.
  unfold success_flag, get_path. intros Ht Hs Hflag Hsid.
  js_unfold. rewrite Ht, Hs. cbn [Z.eqb Pos.eqb].
  destruct (get_prop (data r) k_success) as [e | ok]; [discriminate |].
  rewrite Hflag.
  destruct (get_prop (data r) k_data) as [e | d]; [discriminate |].
  destruct (get_prop d k_sid) as [e | s']; [discriminate |].
  injection Hsid as ->. reflexivity.
Qed.

Lemma login_true_inv transport u p w :
  fst (login transport u p w) = inr (JBool true) ->
  exists r s,
    transport (login_config (self w) u p) = Fulfilled r /\
    status r = 200 /\
    success_flag r = true /\
    get_path (data r) [k_data; k_sid] = inr s.
Proof.
  unfold success_flag, get_path. js_unfold. intros H.
  destruct (transport _) as [r | reason]; [| discriminate].
  exists r.
  destruct (Z.eqb_spec (status r) 200) as [Hs | Hs]; [| discriminate].
  destruct (get_prop (data r) k_success) as [e | ok]; [discriminate |].
  destruct (truthy ok).
  - destruct (get_prop (data r) k_data) as [e | d]; [discriminate |].
    destruct (get_prop d k_sid) as [e | s]; [discriminate |].
    exists s. auto.
  - js_cases; discriminate.
Qed.

Lemma login_otherwise transport u p w :
  fst (login transport u p w) <> inr (JBool true) ->
  fst (login transport u p w) = inr JUndefined /\
  self (snd (login transport u p w)) = self w.
Proof.
  js_unfold. intros H.
  js_cases; first [split; reflexivity | destruct H; reflexivity].
Qed.

(** C2, amended. [login] resolves [true] exactly when the request is
    answered with status 200, the success flag of the envelope is true and
    the envelope carries a payload whose [sid] can be read; it then stores
    that [sid] as the session token.  In every other case (success flag
    false, payload missing, another status, request rejected) it resolves
    [undefined] and leaves the instance, the session token included, as
    it was. *)
Theorem login_outcome transport (u p : value) (w : World) :
  let out := login transport u p w in
  let granted r s :=
    transport (login_config (self w) u p) = Fulfilled r /\
    status r = 200 /\
    success_flag r = true /\
    get_path (data r) [k_data; k_sid] = inr s in
  (fst out = inr (JBool true) <-> exists r s, granted r s) /\
  (forall r s, granted r s ->
     self (snd out) = {| _url := _url (self w); _sid := s |}) /\
  (fst out <> inr (JBool true) ->
     fst out = inr JUndefined /\ self (snd out) = self w).
Proof.
  cbv zeta. split; [split |].
  - apply login_true_inv.
  - intros (r & s & Ht & Hs & Hflag & Hsid).
    rewrite (login_granted _ _ _ _ _ _ Ht Hs Hflag Hsid). reflexivity.
  - split; [| apply login_otherwise].
    intros r s (Ht & Hs & Hflag & Hsid).
    rewrite (login_granted _ _ _ _ _ _ Ht Hs Hflag Hsid). reflexivity.
Qed.

Lemma login_outcome_witness :
  let out :=
    login (always (granted_with_sid "abc")) (JStr "admin") (JStr "secret")
      (world_of fresh_nas) in
  fst out = inr (JBool true) /\ _sid (self (snd out)) = JStr "abc".
Proof.
  cbv zeta.
  destruct (login_outcome (always (granted_with_sid "abc")) (JStr "admin")
              (JStr "secret") (world_of fresh_nas)) as (Hiff & Hstore & _).
  cbv zeta in Hiff, Hstore.
  assert (always (granted_with_sid "abc")
            (login_config (self (world_of fresh_nas)) (JStr "admin")
               (JStr "secret")) =
            Fulfilled {| status := 200; data := sid_envelope "abc" |} /\
          status {| status := 200; data := sid_envelope "abc" |} = 200 /\
          success_flag {| status := 200; data := sid_envelope "abc" |} = true /\
          get_path (data {| status := 200; data := sid_envelope "abc" |})
            [k_data; k_sid] = inr (JStr "abc")) as Hg.
  { repeat split; vm_compute; reflexivity. }
  split.
  - apply Hiff. eexists _, _. exact Hg.
  - rewrite (Hstore _ _ Hg). reflexivity.
Defined.

(** ** The instance is only touched by login *)

(** C3. A call of any method other than [login] leaves the instance as it
    was, its URL and its session token, however the request settles and
    whatever the reply holds; [logout] in particular keeps the session
    token. *)
Theorem only_login_touches_the_instance transport (c : call) (w : World) :
  is_login c = false ->
  let w' := snd (invoke transport c w) in
  _url (self w') = _url (self w) /\ _sid (self w') = _sid (self w).
Proof.
  intros Hc; cbv zeta.
  rewrite (invoke_keeps_self transport c Hc w). split; reflexivity.
Qed.

Lemma only_login_touches_the_instance_witness :
  is_login Call_logout = false /\
  let w' := snd (invoke (always (ok_with (envelope [("success", JBool true)])))
                   Call_logout (world_of logged_in_nas)) in
  _url (self w') = localhost_5001 /\ _sid (self w') = JStr "abc".
Proof.
  split; [reflexivity |].
  exact (only_login_touches_the_instance
           (always (ok_with (envelope [("success", JBool true)])))
           Call_logout (world_of logged_in_nas) eq_refl).
Defined.

(** ** What the task methods resolve to *)

(** C4. When the list request is answered with status 200 and the success
    flag of the envelope is true, [getTaskList] resolves to what the
    envelope holds at [data.tasks], the array as it is; when the success
    flag is false it resolves [undefined]. *)
Theorem getTaskList_result
    transport (offset limit additional : value) (w : World) (r : response) :
  transport (getTaskList_config (self w) (or_default additional (JStr ""))) =
    Fulfilled r ->
  let out := fst (getTaskList transport offset limit additional w) in
  (status r = 200 ->
   success_flag r = true ->
   forall tasks, get_path (data r) [k_data; k_tasks] = inr tasks ->
   out = inr tasks) /\
  (success_flag r = false -> out = inr JUndefined).
Proof.
  unfold success_flag, get_path. intros Ht; cbv zeta.
  js_unfold. rewrite Ht.
  split.
  - intros -> Hflag tasks Htasks. cbn [Z.eqb Pos.eqb].
    destruct (get_prop (data r) k_success) as [e | ok]; [discriminate |].
    rewrite Hflag.
    destruct (get_prop (data r) k_data) as [e | d]; [discriminate |].
    destruct (get_prop d k_tasks) as [e | t]; [discriminate |].
    injection Htasks as ->. reflexivity.
  - intros Hflag.
    destruct (Z.eqb (status r) 200); [| reflexivity].
    destruct (get_prop (data r) k_success) as [e | ok]; [reflexivity |].
    rewrite Hflag. reflexivity.
Qed.

Lemma getTaskList_result_witness :
  let r := {| status := 200; data := tasks_envelope two_tasks |} in
  let out :=
    fst (getTaskList (always (Fulfilled r)) (JNum 0) (JNum (-1)) (JStr "detail")
           (world_of logged_in_nas)) in
  status r = 200 /\ success_flag r = true /\ out = inr (JArr two_tasks).
Proof.
  cbv zeta. split; [reflexivity |]. split; [vm_compute; reflexivity |].
  refine (proj1 (getTaskList_result
                   (always (Fulfilled
                      {| status := 200; data := tasks_envelope two_tasks |}))
                   (JNum 0) (JNum (-1)) (JStr "detail") (world_of logged_in_nas)
                   _ eq_refl) eq_refl _ (JArr two_tasks) _);
    vm_compute; reflexivity.
Defined.

(** C5. [getTaskInfo] resolves to the whole envelope, success flag and all,
    when the request is answered with status 200 and the success flag is
    true; it resolves [undefined] when the flag is false, when the status
    is not 200 and when the request is rejected. *)
Theorem getTaskInfo_result transport (id additional : value) (w : World) :
  let out := fst (getTaskInfo transport id additional w) in
  let config :=
    getTaskInfo_config (self w) id (or_default additional (JStr "")) in
  (forall r, transport config = Fulfilled r -> status r = 200 ->
             success_flag r = true -> out = inr (data r)) /\
  (forall r, transport config = Fulfilled r -> status r = 200 ->
             success_flag r = false -> out = inr JUndefined) /\
  (forall r, transport config = Fulfilled r -> status r <> 200 ->
             out = inr JUndefined) /\
  (forall reason, transport config = Rejected reason ->
                  out = inr JUndefined).
Proof.
  cbv zeta. unfold success_flag. js_unfold.
  repeat split.
  - intros r -> -> Hflag. cbn [Z.eqb Pos.eqb].
    destruct (get_prop (data r) k_success) as [e | ok]; [discriminate |].
    rewrite Hflag. reflexivity.
  - intros r -> -> Hflag. cbn [Z.eqb Pos.eqb].
    destruct (get_prop (data r) k_success) as [e | ok]; [reflexivity |].
    rewrite Hflag. reflexivity.
  - intros r -> Hs. apply Z.eqb_neq in Hs. rewrite Hs. reflexivity.
  - intros reason ->. reflexivity.
Qed.

Lemma getTaskInfo_result_witness :
  let r := {| status := 200; data := tasks_envelope two_tasks |} in
  success_flag r = true /\
  fst (getTaskInfo (always (Fulfilled r)) (JStr "dbid_100") JUndefined
         (world_of logged_in_nas)) = inr (tasks_envelope two_tasks).
Proof.
  cbv zeta. split; [vm_compute; reflexivity |].
  refine (proj1 (getTaskInfo_result
                   (always (Fulfilled
                      {| status := 200; data := tasks_envelope two_tasks |}))
                   (JStr "dbid_100") JUndefined (world_of logged_in_nas))
                _ eq_refl eq_refl _).
  vm_compute; reflexivity.
Defined.

(** C6. For [createTask], [deleteTask], [pauseTask] and [resumeTask], a
    reply with status 200 is resolved to its body as it is, whatever the
    success flag of the envelope says; with another status, or when the
    request is rejected, the call resolves [undefined]. *)
Theorem command_result transport (c : call) (w : World) :
  is_command c = true ->
  let out := fst (invoke transport c w) in
  let config := config_of (self w) c in
  (forall r, transport config = Fulfilled r -> status r = 200 ->
             out = inr (data r)) /\
  (forall r, transport config = Fulfilled r -> status r <> 200 ->
             out = inr JUndefined) /\
  (forall reason, transport config = Rejected reason ->
                  out = inr JUndefined).
Proof.
  intros Hc; cbv zeta.
  destruct c; try discriminate Hc; js_unfold; repeat split.
  all: try (intros r -> ->; reflexivity).
  all: try (intros r -> Hs; apply Z.eqb_neq in Hs; rewrite Hs; reflexivity).
  all: intros reason ->; reflexivity.
Qed.

Lemma command_result_witness :
  is_command (Call_pauseTask (JStr "dbid_100")) = true /\
  fst (invoke (always (ok_with (error_envelope 405)))
         (Call_pauseTask (JStr "dbid_100")) (world_of logged_in_nas)) =
    inr (error_envelope 405).
Proof.
  split; [reflexivity |].
  exact (proj1 (command_result (always (ok_with (error_envelope 405)))
                  (Call_pauseTask (JStr "dbid_100")) (world_of logged_in_nas)
                  eq_refl) _ eq_refl eq_refl).
Defined.

(** ** Failures are swallowed *)

(** C7. No call of the nine methods ever rejects: whatever happens, the
    promise resolves.  When axios rejects the request, the promise
    resolves to [undefined]. *)
Theorem rejection_resolves_undefined transport (c : call) (w : World) :
  (forall e, fst (invoke transport c w) <> inl e) /\
  (forall reason,
     transport (config_of (self w) c) = Rejected reason ->
     fst (invoke transport c w) = inr JUndefined).
Proof.
  split.
  - intros e He. destruct (invoke_never_throws transport c w) as [v Hv].
    rewrite Hv in He. discriminate He.
  - apply invoke_rejected.
Qed.

Lemma rejection_resolves_undefined_witness :
  fst (invoke (always (Rejected (JStr "ECONNREFUSED")))
         (Call_login (JStr "admin") (JStr "secret")) (world_of fresh_nas)) =
    inr JUndefined.
Proof.
  exact (proj2 (rejection_resolves_undefined
                  (always (Rejected (JStr "ECONNREFUSED")))
                  (Call_login (JStr "admin") (JStr "secret"))
                  (world_of fresh_nas)) _ eq_refl).
Defined.

(** ** The constructor and the getters *)

(** C8, as stated, fails for a string that is not a URL: [new URL] throws
    and no client is constructed. *)
Lemma constructor_rejects_malformed_string :
  URL_parse_ref "not a url" = None /\
  ~ (exists nas,
       constructor URL_parse_ref (OfValue (JStr "not a url")) = inr nas /\
       origin (_url nas) = "https://localhost:5001" /\
       _sid nas = JStr "").
Proof.
  split; [reflexivity |].
  intros (nas & H & _). vm_compute in H. discriminate H.
Qed.

(** C8, amended. Constructing a client with no argument, or with a value
    that is neither a string nor a [URL] object, yields a client on the
    default origin [https://localhost:5001] with the empty session token;
    a string that [new URL] rejects makes the constructor throw. *)
Theorem constructor_default URL_parse (u : URL) :
  URL_parse "https://localhost:5001" = Some u ->
  origin u = "https://localhost:5001" ->
  (forall v, (forall s, v <> JStr s) ->
     exists nas,
       constructor URL_parse (OfValue v) = inr nas /\
       origin (_url nas) = "https://localhost:5001" /\
       _sid nas = JStr "") /\
  (forall s, URL_parse s = None ->
     constructor URL_parse (OfValue (JStr s)) = inl (InvalidURL s)).
Proof.
  intros Hdefault Horigin. split.
  - intros v Hv. exists {| _url := u; _sid := JStr "" |}.
    split; [| split; [exact Horigin | reflexivity]].
    destruct v; try (unfold constructor, new_URL; rewrite Hdefault; reflexivity).
    destruct (Hv s); reflexivity.
  - intros s Hs. unfold constructor, new_URL. rewrite Hs. reflexivity.
Qed.

Lemma constructor_default_witness :
  URL_parse_ref "https://localhost:5001" = Some localhost_5001 /\
  origin localhost_5001 = "https://localhost:5001" /\
  exists nas,
    constructor URL_parse_ref (OfValue JUndefined) = inr nas /\
    origin (_url nas) = "https://localhost:5001" /\
    _sid nas = JStr "".
Proof.
  assert (URL_parse_ref "https://localhost:5001" = Some localhost_5001) as Hp
    by (vm_compute; reflexivity).
  split; [exact Hp |]. split; [reflexivity |].
  apply (proj1 (constructor_default URL_parse_ref localhost_5001 Hp eq_refl)).
  intros s; discriminate.
Defined.

(** C9. For a string that [new URL] accepts, the client is constructed and
    its getters [host], [portocol] (the protocol), [hostname] and [port]
    return the components of the parsed URL, leaving the world as it was. *)
Theorem getters_project_the_url URL_parse (s : string) (u : URL) :
  URL_parse s = Some u ->
  exists nas,
    constructor URL_parse (OfValue (JStr s)) = inr nas /\
    forall w, self w = nas ->
      get_host w = (inr (JStr (host u)), w) /\
      get_portocol w = (inr (JStr (protocol u)), w) /\
      get_hostname w = (inr (JStr (hostname u)), w) /\
      get_port w = (inr (JStr (port u)), w).
Proof.
  intros Hs. exists {| _url := u; _sid := JStr "" |}. split.
  - unfold constructor, new_URL. rewrite Hs. reflexivity.
  - intros w Hw.
    unfold get_host, get_portocol, get_hostname, get_port, bind, this, ret.
    rewrite Hw. repeat split.
Qed.

Lemma getters_project_the_url_witness :
  URL_parse_ref "https://192.168.1.241:5001" = Some address_5001 /\
  exists nas,
    constructor URL_parse_ref (OfValue (JStr "https://192.168.1.241:5001")) =
      inr nas /\
    get_host (world_of nas) = (inr (JStr "192.168.1.241:5001"), world_of nas) /\
    get_portocol (world_of nas) = (inr (JStr "https:"), world_of nas) /\
    get_hostname (world_of nas) = (inr (JStr "192.168.1.241"), world_of nas) /\
    get_port (world_of nas) = (inr (JStr "5001"), world_of nas).
Proof.
  assert (URL_parse_ref "https://192.168.1.241:5001" = Some address_5001) as Hp
    by (vm_compute; reflexivity).
  split; [exact Hp |].
  destruct (getters_project_the_url URL_parse_ref _ _ Hp) as (nas & Hnas & Hget).
  exists nas. split; [exact Hnas |].
  exact (Hget (world_of nas) eq_refl).
Defined.

(** ** The session token in the requests *)

(** C10. Each of the six task methods issues one request whose [_sid]
    parameter is the session token the instance holds at the call, which
    is the empty string on an instance as constructed; the request of
    [logout] has no [_sid] parameter. *)
Theorem task_requests_carry_the_sid transport URL_parse (c : call) (w : World) :
  (is_task_call c = true ->
   exists config,
     requests (snd (invoke transport c w)) = (requests w ++ [config])%list /\
     params config !! "_sid" = Some (_sid (self w)) /\
     (forall arg, constructor URL_parse arg = inr (self w) ->
                  params config !! "_sid" = Some (JStr ""))) /\
  (exists config,
     requests (snd (logout transport w)) = (requests w ++ [config])%list /\
     params config !! "_sid" = None).
Proof.
  split.
  - intros Hc. exists (config_of (self w) c).
    split; [apply invoke_requests |].
    split; [apply task_call_sid; exact Hc |].
    intros arg Harg. rewrite (task_call_sid _ _ Hc).
    unfold constructor in Harg.
    repeat case_match; simplify_eq; rewrite <- Harg; reflexivity.
  - exists (logout_config (self w)).
    split; [exact (invoke_requests transport Call_logout w) | apply logout_no_sid].
Qed.

Lemma task_requests_carry_the_sid_witness :
  is_task_call (Call_createTask (JStr "http://example.com/file.iso")) = true /\
  exists config,
    requests (snd (invoke (always (ok_with (envelope [("success", JBool true)])))
                     (Call_createTask (JStr "http://example.com/file.iso"))
                     (world_of fresh_nas))) = [config] /\
    params config !! "_sid" = Some (JStr "").
Proof.
  split; [reflexivity |].
  destruct (proj1 (task_requests_carry_the_sid
                     (always (ok_with (envelope [("success", JBool true)])))
                     URL_parse_ref
                     (Call_createTask (JStr "http://example.com/file.iso"))
                     (world_of fresh_nas)) eq_refl) as (config & Hreq & Hsid & _).
  exists config. split; [exact Hreq | exact Hsid].
Defined.

(** * Further properties of the methods *)

(** ** info and logout *)

(** A body whose success flag is true is not [undefined] or [null], so its
    other properties can be read. *)
Lemma success_flag_readable r k :
  success_flag r = true -> exists v, get_prop (data r) k = inr v.
Proof.
  unfold success_flag. destruct (data r); simpl; try discriminate; eauto.
Qed.

(** X1. When the discovery request is answered with status 200 and a true
    success flag, [info] resolves to the [data] of the envelope, which can
    always be read, and writes nothing to the console. *)
Theorem info_resolves_the_catalogue transport (w : World) (r : response) :
  transport (info_config (self w)) = Fulfilled r ->
  status r = 200 ->
  success_flag r = true ->
  exists catalogue,
    get_prop (data r) k_data = inr catalogue /\
    info transport w = (inr catalogue, add_request (info_config (self w)) w).
Proof.
  intros Ht Hs Hflag.
  destruct (success_flag_readable r k_data Hflag) as [catalogue Hc].
  exists catalogue. split; [exact Hc |].
  unfold success_flag in Hflag.
  js_unfold. rewrite Ht, Hs. cbn [Z.eqb Pos.eqb].
  destruct (get_prop (data r) k_success) as [e | ok]; [discriminate |].
  rewrite Hflag, Hc. reflexivity.
Qed.

Lemma info_resolves_the_catalogue_witness :
  exists catalogue,
    get_prop (data {| status := 200; data := api_catalogue |}) k_data =
      inr catalogue /\
    info (always (ok_with api_catalogue)) (world_of fresh_nas) =
      (inr catalogue,
       add_request (info_config (self (world_of fresh_nas)))
         (world_of fresh_nas)).
Proof.
  apply (info_resolves_the_catalogue (always (ok_with api_catalogue))
           (world_of fresh_nas) {| status := 200; data := api_catalogue |});
    vm_compute; reflexivity.
Defined.



(** X3. On a reply with status 200 [logout] resolves to the [success]
    property of the body as it is, [undefined] when the body has none; on
    another status it resolves [undefined]. Neither case writes to the
    console. *)
Theorem logout_result transport (w : World) (r : response) :
  transport (logout_config (self w)) = Fulfilled r ->
  (status r = 200 ->
   forall flag, get_prop (data r) k_success = inr flag ->
     logout transport w = (inr flag, add_request (logout_config (self w)) w)) /\
  (status r <> 200 ->
   logout transport w =
     (inr JUndefined, add_request (logout_config (self w)) w)).
Proof.
  intros Ht. split.
  - intros Hs flag Hflag. js_unfold. rewrite Ht, Hs, Hflag. reflexivity.
  - intros Hs. apply Z.eqb_neq in Hs. js_unfold. rewrite Ht, Hs. reflexivity.
Qed.

Lemma logout_result_witness :
  logout (always (ok_with (envelope [("success", JBool false)])))
    (world_of logged_in_nas) =
  (inr (JBool false),
   add_request (logout_config logged_in_nas) (world_of logged_in_nas)).
Proof.
  refine (proj1 (logout_result
                   (always (ok_with (envelope [("success", JBool false)])))
                   (world_of logged_in_nas)
                   {| status := 200;
                      data := envelope [("success", JBool false)] |} eq_refl)
            eq_refl (JBool false) _).
  vm_compute; reflexivity.
Defined.

(** ** What reaches the console *)

(** X4. When axios rejects the request of a call, the call resolves
    [undefined], the reason of the rejection is the one line written to the
    console, and the instance is untouched. *)
Theorem rejection_is_logged transport (c : call) (w : World) reason :
  transport (config_of (self w) c) = Rejected reason ->
  invoke transport c w =
    (inr JUndefined,
     add_log (LogError (Rejection reason))
       (add_request (config_of (self w) c) w)).
Proof.
  intros H. destruct c; js_unfold; rewrite H; reflexivity.
Qed.

Lemma rejection_is_logged_witness :
  invoke (always (Rejected (JStr "ETIMEDOUT")))
    (Call_deleteTask (JStr "dbid_100") JUndefined) (world_of logged_in_nas) =
  (inr JUndefined,
   add_log (LogError (Rejection (JStr "ETIMEDOUT")))
     (add_request
        (config_of logged_in_nas (Call_deleteTask (JStr "dbid_100") JUndefined))
        (world_of logged_in_nas))).
Proof.
  exact (rejection_is_logged (always (Rejected (JStr "ETIMEDOUT")))
           (Call_deleteTask (JStr "dbid_100") JUndefined)
           (world_of logged_in_nas) (JStr "ETIMEDOUT") eq_refl).
Defined.

(** X5. A reply whose status is not 200 makes every call resolve
    [undefined]. [info], [login], [getTaskList] and [getTaskInfo] write the
    status to the console; [logout], [createTask], [deleteTask],
    [pauseTask] and [resumeTask] write nothing. *)
Theorem status_is_reported_by_four_methods
    transport (c : call) (w : World) (r : response) :
  transport (config_of (self w) c) = Fulfilled r ->
  status r <> 200 ->
  invoke transport c w =
    (inr JUndefined,
     if reports_status c
     then add_log (http_error r) (add_request (config_of (self w) c) w)
     else add_request (config_of (self w) c) w).
Proof.
  intros Ht Hs. apply Z.eqb_neq in Hs.
  destruct c; js_unfold; rewrite Ht, Hs; reflexivity.
Qed.

Lemma status_is_reported_by_four_methods_witness :
  (503 : Z) <> 200 /\
  invoke (always (Fulfilled {| status := 503; data := JStr "" |}))
    (Call_resumeTask (JStr "dbid_100")) (world_of logged_in_nas) =
  (inr JUndefined,
   add_request (config_of logged_in_nas (Call_resumeTask (JStr "dbid_100")))
     (world_of logged_in_nas)).
Proof.
  assert ((503 : Z) <> 200) as Hne by discriminate.
  split; [exact Hne |].
  exact (status_is_reported_by_four_methods
           (always (Fulfilled {| status := 503; data := JStr "" |}))
           (Call_resumeTask (JStr "dbid_100")) (world_of logged_in_nas)
           {| status := 503; data := JStr "" |} eq_refl Hne).
Defined.

(** X6. When the envelope of a reply with status 200 has a false success
    flag, [getTaskList] and [getTaskInfo] resolve [undefined] without
    reading the error code: nothing is written to the console. *)
Theorem task_queries_drop_the_error_code
    transport (w : World) (r : response) (flag : value) :
  status r = 200 ->
  get_prop (data r) k_success = inr flag ->
  truthy flag = false ->
  (forall offset limit additional,
     let config :=
       getTaskList_config (self w) (or_default additional (JStr "")) in
     transport config = Fulfilled r ->
     getTaskList transport offset limit additional w =
       (inr JUndefined, add_request config w)) /\
  (forall id additional,
     let config :=
       getTaskInfo_config (self w) id (or_default additional (JStr "")) in
     transport config = Fulfilled r ->
     getTaskInfo transport id additional w =
       (inr JUndefined, add_request config w)).
Proof.
  intros Hs Hflag Hfalse. split.
  - intros offset limit additional config Ht. subst config.
    js_unfold. rewrite Ht, Hs, Hflag, Hfalse. reflexivity.
  - intros id additional config Ht. subst config.
    js_unfold. rewrite Ht, Hs, Hflag, Hfalse. reflexivity.
Qed.

Lemma task_queries_drop_the_error_code_witness :
  getTaskList (always (ok_with (error_envelope 105))) JUndefined JUndefined
    JUndefined (world_of fresh_nas) =
  (inr JUndefined,
   add_request (getTaskList_config fresh_nas (JStr "")) (world_of fresh_nas)).
Proof.
  refine (proj1 (task_queries_drop_the_error_code
                   (always (ok_with (error_envelope 105)))
                   (world_of fresh_nas)
                   {| status := 200; data := error_envelope 105 |}
                   (JBool false) eq_refl _ eq_refl)
            JUndefined JUndefined JUndefined eq_refl).
  vm_compute; reflexivity.
Defined.

(** ** login *)

(** X7. A login refused with an error code resolves [undefined] and keeps
    the instance as it was. A code that is one of the numbers 400 to 404
    leaves one line on the console; any other code, and a code that is not
    a number, leaves none. *)
Theorem login_refusal_logging
    transport (u p : value) (w : World) (r : response) (c : value) :
  transport (login_config (self w) u p) = Fulfilled r ->
  status r = 200 ->
  success_flag r = false ->
  get_path (data r) [k_error; k_code] = inr c ->
  let out := login transport u p w in
  fst out = inr JUndefined /\
  self (snd out) = self w /\
  (forall n, c = JNum n -> 400 <= n <= 404 ->
     exists msg, console (snd out) = (console w ++ [LogValue (JStr msg)])%list) /\
  ((forall n, 400 <= n <= 404 -> c <> JNum n) ->
     console (snd out) = console w).
Proof.
  unfold success_flag, get_path. intros Ht Hs Hflag Hc; cbv zeta.
  js_unfold. rewrite Ht, Hs. cbn [Z.eqb Pos.eqb].
  destruct (data r); cbn [get_prop] in *; try discriminate.
  rewrite Hflag.
  destruct (get_prop _ k_code) as [e | c']; [discriminate |].
  injection Hc as ->.
  destruct (login_error c) as [msg |] eqn:Hmsg; cbn [fst snd].
  - repeat split.
    + intros n _ _. exists msg. reflexivity.
    + intros Hout. exfalso.
      unfold login_error in Hmsg.
      repeat case_match; try discriminate; subst;
        match goal with
        | |- False => eapply Hout; [| reflexivity]; lia
        end.
  - repeat split.
    intros n -> Hn. exfalso.
    assert (n = 400 \/ n = 401 \/ n = 402 \/ n = 403 \/ n = 404) as Hcases by lia.
    destruct Hcases as [-> | [-> | [-> | [-> | ->]]]]; discriminate Hmsg.
Qed.

Lemma login_refusal_logging_witness :
  let out :=
    login (always (ok_with (error_envelope 407))) (JStr "admin") (JStr "wrong")
      (world_of logged_in_nas) in
  fst out = inr JUndefined /\ self (snd out) = logged_in_nas /\
  console (snd out) = [].
Proof.
  cbv zeta.
  destruct (login_refusal_logging (always (ok_with (error_envelope 407)))
              (JStr "admin") (JStr "wrong") (world_of logged_in_nas)
              {| status := 200; data := error_envelope 407 |} (JNum 407)
              eq_refl eq_refl) as (Hv & Hself & _ & Hquiet).
  - vm_compute; reflexivity.
  - vm_compute; reflexivity.
  - split; [exact Hv |]. split; [exact Hself |].
    apply Hquiet. intros n Hn [= <-]. lia.
Defined.

(** X8. A login granted with a payload that has no [sid] still resolves
    [true], and the session token becomes [undefined], whatever it was
    before. *)
Theorem login_without_sid_clears_the_token
    transport (u p : value) (w : World) (r : response) (d : value) :
  transport (login_config (self w) u p) = Fulfilled r ->
  status r = 200 ->
  success_flag r = true ->
  get_prop (data r) k_data = inr d ->
  d <> JUndefined -> d <> JNull ->
  (forall fields, d = JObj fields -> fields !! "sid" = None) ->
  login transport u p w =
    (inr (JBool true),
     set_sid JUndefined (add_request (login_config (self w) u p) w)).
Proof.
  intros Ht Hs Hflag Hd Hu Hn Hsid.
  apply (login_granted transport u p w r JUndefined Ht Hs Hflag).
  unfold get_path. rewrite Hd.
  destruct d; try contradiction; try reflexivity.
  cbn [get_prop key_name]. rewrite (Hsid _ eq_refl). reflexivity.
Qed.

Lemma login_without_sid_clears_the_token_witness :
  let out :=
    login (always (ok_with (envelope [("success", JBool true);
                                      ("data", envelope [])])))
      (JStr "admin") (JStr "secret") (world_of logged_in_nas) in
  fst out = inr (JBool true) /\ _sid (self (snd out)) = JUndefined.
Proof.
  cbv zeta.
  rewrite (login_without_sid_clears_the_token
             (always (ok_with (envelope [("success", JBool true);
                                         ("data", envelope [])])))
             (JStr "admin") (JStr "secret") (world_of logged_in_nas)
             {| status := 200;
                data := envelope [("success", JBool true);
                                  ("data", envelope [])] |}
             (envelope []) eq_refl eq_refl).
  - split; reflexivity.
  - vm_compute; reflexivity.
  - vm_compute; reflexivity.
  - discriminate.
  - discriminate.
  - intros fields [= <-]. reflexivity.
Defined.

(** ** Arguments and parameters *)

(** A key that is among those of an object literal. *)
Ltac present_key :=
  cbv beta iota delta
    [params info_config login_config logout_config getTaskList_config
     getTaskInfo_config createTask_config deleteTask_config pauseTask_config
     resumeTask_config];
  cbn [list_to_map foldr uncurry fst snd];
  repeat (rewrite lookup_insert_ne by discriminate);
  apply lookup_insert_eq.

Lemma or_default_given arg dflt : arg <> JUndefined -> or_default arg dflt = arg.
Proof. destruct arg; intros H; try reflexivity. destruct H; reflexivity. Qed.

(** X9. Leaving out an optional argument is the same as passing its
    default: [""] for [additional], [false] for [force_complete]. Any
    other value, [null] included, is sent as it was passed. *)
Theorem optional_arguments transport (w : World) (id v : value) :
  (forall offset limit,
     getTaskList transport offset limit JUndefined w =
     getTaskList transport offset limit (JStr "") w) /\
  getTaskInfo transport id JUndefined w =
    getTaskInfo transport id (JStr "") w /\
  deleteTask transport id JUndefined w =
    deleteTask transport id (JBool false) w /\
  (v <> JUndefined ->
   (forall offset limit, exists config,
      requests (snd (getTaskList transport offset limit v w)) =
        (requests w ++ [config])%list /\
      params config !! "additional" = Some v) /\
   (exists config,
      requests (snd (getTaskInfo transport id v w)) =
        (requests w ++ [config])%list /\
      params config !! "additional" = Some v) /\
   (exists config,
      requests (snd (deleteTask transport id v w)) =
        (requests w ++ [config])%list /\
      params config !! "force_complete" = Some v)).
Proof.
  split; [reflexivity |]. split; [reflexivity |]. split; [reflexivity |].
  intros Hv. repeat split.
  - intros offset limit. eexists. split.
    + exact (invoke_requests transport (Call_getTaskList offset limit v) w).
    + cbn [config_of]. rewrite (or_default_given _ _ Hv). present_key.
  - eexists. split.
    + exact (invoke_requests transport (Call_getTaskInfo id v) w).
    + cbn [config_of]. rewrite (or_default_given _ _ Hv). present_key.
  - eexists. split.
    + exact (invoke_requests transport (Call_deleteTask id v) w).
    + cbn [config_of]. rewrite (or_default_given _ _ Hv). present_key.
Qed.

Lemma optional_arguments_witness :
  exists config,
    requests (snd (deleteTask (always (ok_with (envelope [("success", JBool true)])))
                     (JStr "dbid_100") JNull (world_of logged_in_nas))) =
      [config] /\
    params config !! "force_complete" = Some JNull.
Proof.
  refine (proj2 (proj2 (proj2 (proj2 (proj2 (optional_arguments
            (always (ok_with (envelope [("success", JBool true)])))
            (world_of logged_in_nas) (JStr "dbid_100") JNull))) _))).
  discriminate.
Defined.

(** X10. The account and the password travel as parameters of the login
    request, which carries no session token; the request of no other call
    has an [account] or a [passwd] parameter. *)
Theorem credentials_only_in_login transport (c : call) (w : World) :
  exists config,
    requests (snd (invoke transport c w)) = (requests w ++ [config])%list /\
    (forall u p, c = Call_login u p ->
       params config !! "account" = Some u /\
       params config !! "passwd" = Some p /\
       params config !! "_sid" = None) /\
    (is_login c = false ->
       params config !! "account" = None /\
       params config !! "passwd" = None).
Proof.
  exists (config_of (self w) c). split; [apply invoke_requests |]. split.
  - intros u p ->. cbn [config_of].
    split; [present_key | split; [present_key | absent_key]].
  - intros Hc. destruct c; try discriminate Hc; cbn [config_of];
      split; absent_key.
Qed.

Lemma credentials_only_in_login_witness :
  exists config,
    requests (snd (invoke (always (granted_with_sid "abc"))
                     (Call_login (JStr "admin") (JStr "secret"))
                     (world_of fresh_nas))) = [config] /\
    params config !! "account" = Some (JStr "admin") /\
    params config !! "passwd" = Some (JStr "secret") /\
    params config !! "_sid" = None.
Proof.
  destruct (credentials_only_in_login (always (granted_with_sid "abc"))
              (Call_login (JStr "admin") (JStr "secret")) (world_of fresh_nas))
    as (config & Hreq & Hlogin & _).
  exists config. split; [exact Hreq |]. exact (Hlogin _ _ eq_refl).
Defined.

(** ** Sessions *)

Lemma invoke_keeps_url transport c w :
  _url (self (snd (invoke transport c w))) = _url (self w).
Proof.
  destruct (is_login c) eqn:Hc.
  - destruct c; try discriminate Hc. js_unfold. js_cases; reflexivity.
  - rewrite (invoke_keeps_self transport c Hc w). reflexivity.
Qed.

Lemma config_of_target nas c :
  baseURL (config_of nas c) = origin (_url nas) /\
  String.prefix "/webapi/" (url (config_of nas c)) = true /\
  rejectUnauthorized (httpsAgent (config_of nas c)) = false.
Proof. destruct c; repeat split. Qed.

(** Every call writes at most one line to the console and erases none. *)
Lemma invoke_console transport c w :
  exists lines,
    console (snd (invoke transport c w)) = (console w ++ lines)%list /\
    (length lines <= 1)%nat.
Proof.
  destruct c; js_unfold; js_cases; cbn [console add_log add_request set_sid];
    first [ exists []; split; [symmetry; apply app_nil_r | simpl; lia]
          | eexists [_]; split; [reflexivity | simpl; lia] ].
Qed.

(** X11. Whatever calls a caller awaits, logins included, the URL of the
    instance stays the one it was constructed with, each call issues
    exactly one request, and every request goes to the origin of that URL,
    to a path under [/webapi/], with certificate verification turned
    off. *)
Theorem session_requests (script : list (network * call)) (w : World) :
  let w' := run_session script w in
  _url (self w') = _url (self w) /\
  exists new,
    requests w' = (requests w ++ new)%list /\
    length new = length script /\
    Forall (fun config =>
              baseURL config = origin (_url (self w)) /\
              String.prefix "/webapi/" (url config) = true /\
              rejectUnauthorized (httpsAgent config) = false) new.
Proof.
  cbv zeta. revert w.
  induction script as [| [transport c] rest IH]; intros w; cbn [run_session].
  - split; [reflexivity |]. exists []. split; [symmetry; apply app_nil_r |].
    split; [reflexivity | constructor].
  - destruct (IH (snd (invoke transport c w))) as (Hurl & new & Hreq & Hlen & Hall).
    rewrite invoke_keeps_url in Hurl, Hall.
    split; [exact Hurl |].
    exists (config_of (self w) c :: new).
    split; [| split].
    + rewrite Hreq, invoke_requests, <- app_assoc. reflexivity.
    + simpl. rewrite Hlen. reflexivity.
    + constructor; [apply config_of_target | exact Hall].
Qed.

(** X12. The console only grows, by at most one line for each call. *)
Theorem session_console (script : list (network * call)) (w : World) :
  exists lines,
    console (run_session script w) = (console w ++ lines)%list /\
    (length lines <= length script)%nat.
Proof.
  revert w.
  induction script as [| [transport c] rest IH]; intros w; cbn [run_session].
  - exists []. split; [symmetry; apply app_nil_r | reflexivity].
  - destruct (IH (snd (invoke transport c w))) as (lines & Hlines & Hlen).
    destruct (invoke_console transport c w) as (line & Hline & Hone).
    exists (line ++ lines)%list. split.
    + rewrite Hlines, Hline, <- app_assoc. reflexivity.
    + rewrite length_app. simpl. lia.
Qed.

Lemma run_session_without_login (script : list (network * call)) (w : World) :
  Forall (fun step => is_login (snd step) = false) script ->
  self (run_session script w) = self w /\
  requests (run_session script w) =
    (requests w ++ map (fun step => config_of (self w) (snd step)) script)%list.
Proof.
  intros Hscript. revert w.
  induction Hscript as [| [transport c] rest Hc _ IH]; intros w;
    cbn [run_session map].
  - split; [reflexivity | symmetry; apply app_nil_r].
  - destruct (IH (snd (invoke transport c w))) as [Hself Hreq].
    rewrite (invoke_keeps_self transport c Hc w) in Hself, Hreq.
    split; [exact Hself |].
    rewrite Hreq, invoke_requests, <- app_assoc. reflexivity.
Qed.

(** X13. A session without [login] ends with the instance as it started:
    its requests are those configured from the initial instance, so every
    task call, also one made after [logout], carries the session token the
    session started with. *)
Theorem session_without_login (script : list (network * call)) (w : World) :
  Forall (fun step => is_login (snd step) = false) script ->
  let w' := run_session script w in
  self w' = self w /\
  requests w' =
    (requests w ++ map (fun step => config_of (self w) (snd step)) script)%list /\
  (forall step, In step script -> is_task_call (snd step) = true ->
     params (config_of (self w) (snd step)) !! "_sid" = Some (_sid (self w))).
Proof.
  intros Hscript; cbv zeta.
  destruct (run_session_without_login script w Hscript) as [Hself Hreq].
  split; [exact Hself |]. split; [exact Hreq |].
  intros step _ Htask. apply task_call_sid. exact Htask.
Qed.

Lemma session_without_login_witness :
  let script :=
    [(always (ok_with (envelope [("success", JBool true)])), Call_logout);
     (always (ok_with (error_envelope 105)),
      Call_pauseTask (JStr "dbid_100"))] in
  Forall (fun step => is_login (snd step) = false) script /\
  self (run_session script (world_of logged_in_nas)) = logged_in_nas /\
  params (config_of logged_in_nas (Call_pauseTask (JStr "dbid_100"))) !! "_sid" =
    Some (JStr "abc").
Proof.
  cbv zeta.
  assert (Forall (fun step : network * call => is_login (snd step) = false)
            [(always (ok_with (envelope [("success", JBool true)])), Call_logout);
             (always (ok_with (error_envelope 105)),
              Call_pauseTask (JStr "dbid_100"))]) as Hscript
    by (repeat constructor).
  split; [exact Hscript |].
  destruct (session_without_login _ (world_of logged_in_nas) Hscript)
    as (Hself & _ & Hsid).
  split; [exact Hself |].
  apply (Hsid (always (ok_with (error_envelope 105)),
               Call_pauseTask (JStr "dbid_100"))).
  - right; left; reflexivity.
  - reflexivity.
Defined.

(** X14. After a login that is granted with a session token, the calls of
    a session without further login are configured with that token, and
    each task call among them sends it. *)
Theorem session_after_login
    transport (u p : value) (w : World) (r : response) (s : value)
    (script : list (network * call)) :
  transport (login_config (self w) u p) = Fulfilled r ->
  status r = 200 ->
  success_flag r = true ->
  get_path (data r) [k_data; k_sid] = inr s ->
  Forall (fun step => is_login (snd step) = false) script ->
  let w' := run_session ((transport, Call_login u p) :: script) w in
  let nas := {| _url := _url (self w); _sid := s |} in
  self w' = nas /\
  requests w' =
    (requests w ++
     login_config (self w) u p ::
     map (fun step => config_of nas (snd step)) script)%list /\
  (forall step, In step script -> is_task_call (snd step) = true ->
     params (config_of nas (snd step)) !! "_sid" = Some s).
Proof.
  intros Ht Hs Hflag Hsid Hscript; cbv zeta.
  cbn [run_session invoke].
  rewrite (login_granted transport u p w r s Ht Hs Hflag Hsid). cbn [snd].
  destruct (run_session_without_login script
              (set_sid s (add_request (login_config (self w) u p) w)) Hscript)
    as (Hself & Hreq).
  cbn [self set_sid add_request requests] in Hself, Hreq.
  split; [exact Hself |]. split.
  - rewrite Hreq, <- app_assoc. reflexivity.
  - intros step _ Htask.
    exact (task_call_sid {| _url := _url (self w); _sid := s |} (snd step) Htask).
Qed.

Lemma session_after_login_witness :
  let script :=
    [(always (ok_with (tasks_envelope two_tasks)),
      Call_getTaskList JUndefined JUndefined JUndefined)] in
  let w' :=
    run_session
      ((always (granted_with_sid "abc"),
        Call_login (JStr "admin") (JStr "secret")) :: script)
      (world_of fresh_nas) in
  self w' = logged_in_nas /\
  params (config_of logged_in_nas
            (Call_getTaskList JUndefined JUndefined JUndefined)) !! "_sid" =
    Some (JStr "abc").
Proof.
  cbv zeta.
  destruct (session_after_login (always (granted_with_sid "abc"))
              (JStr "admin") (JStr "secret") (world_of fresh_nas)
              {| status := 200; data := sid_envelope "abc" |} (JStr "abc")
              [(always (ok_with (tasks_envelope two_tasks)),
                Call_getTaskList JUndefined JUndefined JUndefined)])
    as (Hself & _ & Hsid).
  - reflexivity.
  - reflexivity.
  - vm_compute; reflexivity.
  - vm_compute; reflexivity.
  - repeat constructor.
  - split; [exact Hself |].
    apply (Hsid (always (ok_with (tasks_envelope two_tasks)),
                 Call_getTaskList JUndefined JUndefined JUndefined)).
    + left; reflexivity.
    + reflexivity.
Defined.

(** ** The constructor *)

(** X15. Where [new URL] accepts the default literal, the constructor
    throws for one kind of argument only, a string that [new URL] rejects,
    and what it throws is the error of [new URL]. A client that is
    constructed starts with the empty session token, and a [URL] object
    given to the constructor is stored as it is. *)
Theorem constructor_outcome URL_parse (dflt : URL) (arg : ctor_arg) :
  URL_parse "https://localhost:5001" = Some dflt ->
  (forall e,
     constructor URL_parse arg = inl e <->
     exists s, arg = OfValue (JStr s) /\ URL_parse s = None /\
               e = InvalidURL s) /\
  (forall nas,
     constructor URL_parse arg = inr nas ->
     _sid nas = JStr "" /\ (forall u, arg = OfURL u -> _url nas = u)).
Proof.
  intros Hdflt. unfold constructor, new_URL. split.
  - intros e. split.
    + intros H. destruct arg as [u | v]; [discriminate |].
      destruct v; rewrite ?Hdflt in H; try discriminate.
      destruct (URL_parse s) eqn:Hs; [discriminate |].
      injection H as <-. exists s. auto.
    + intros (s & -> & Hs & ->). rewrite Hs. reflexivity.
  - intros nas H. destruct arg as [u | v].
    + injection H as <-. split; [reflexivity |]. intros u' [= <-]. reflexivity.
    + split; [| discriminate].
      destruct v; rewrite ?Hdflt in H; try (injection H as <-; reflexivity).
      destruct (URL_parse s); [injection H as <-; reflexivity | discriminate].
Qed.

Lemma constructor_outcome_witness :
  constructor URL_parse_ref (OfValue (JStr "192.168.1.241:5001")) =
    inl (InvalidURL "192.168.1.241:5001").
Proof.
  assert (URL_parse_ref "https://localhost:5001" = Some localhost_5001) as Hp
    by (vm_compute; reflexivity).
  apply (proj1 (constructor_outcome URL_parse_ref localhost_5001
                  (OfValue (JStr "192.168.1.241:5001")) Hp)).
  exists "192.168.1.241:5001". repeat split.
Defined.

(** ** The helper [api] *)


Lemma unescape_escape s : unescape (escape s) = s.
Proof.
  induction s as [| c s IH]; [reflexivity |].
  cbn [escape]. destruct (unreserved c) eqn:Hc.
  - cbn [unescape].
    replace (Ascii.eqb c "%") with false
      by (destruct c as [[] [] [] [] [] [] [] []]; vm_compute in Hc;
          (discriminate || reflexivity)).
    rewrite IH. reflexivity.
  - cbn [unescape Ascii.eqb Bool.eqb]. rewrite IH. f_equal.
    destruct c as [[] [] [] [] [] [] [] []]; reflexivity.
Qed.



(** X17. The URL can be recovered from what [api] returns: two calls
    that return the same string were given the same origin, path and query
    string, put together. *)
Theorem api_is_injective
    stringify (path path' query query' : value) (w w' : World) :
  fst (api stringify path query w) = fst (api stringify path' query' w') ->
  origin (_url (self w)) +:+ "/webapi/" +:+ to_string path +:+ "?" +:+
    stringify query =
  origin (_url (self w')) +:+ "/webapi/" +:+ to_string path' +:+ "?" +:+
    stringify query'.
Proof.
  unfold api, bind, this, ret; cbn [fst]. intros [= H].
  apply (f_equal unescape) in H. rewrite !unescape_escape in H. exact H.
Qed.

Lemma api_is_injective_witness :
  let stringify := fun _ : value => "api=SYNO.API.Auth&version=6" in
  let w := world_of fresh_nas in
  let w' := add_log (LogValue (JStr "later")) (world_of fresh_nas) in
  fst (api stringify (JStr "auth.cgi") JNull w) =
    fst (api stringify (JStr "auth.cgi") JNull w') /\
  origin (_url (self w)) +:+ "/webapi/" +:+ "auth.cgi" +:+ "?" +:+
    "api=SYNO.API.Auth&version=6" =
  origin (_url (self w')) +:+ "/webapi/" +:+ "auth.cgi" +:+ "?" +:+
    "api=SYNO.API.Auth&version=6".
Proof.
  cbv zeta. split; [reflexivity |].
  exact (api_is_injective (fun _ => "api=SYNO.API.Auth&version=6")
           (JStr "auth.cgi") (JStr "auth.cgi") JNull JNull
           (world_of fresh_nas)
           (add_log (LogValue (JStr "later")) (world_of fresh_nas)) eq_refl).
Defined.

(** ** Results and the console *)

Lemma invoke_undefined_or_silent transport c w :
  fst (invoke transport c w) = inr JUndefined \/
  console (snd (invoke transport c w)) = console w.
Proof.
  destruct c; js_unfold; js_cases;
    first [right; reflexivity | left; reflexivity].
Qed.

(** X18. A call that resolves to anything but [undefined] has written
    nothing to the console: whenever a call logs a line, what it resolves
    to is [undefined]. *)
Theorem resolved_values_are_silent transport (c : call) (w : World) :
  fst (invoke transport c w) <> inr JUndefined ->
  console (snd (invoke transport c w)) = console w.
Proof.
  intros H. destruct (invoke_undefined_or_silent transport c w) as [Hu | Hc].
  - contradiction.
  - exact Hc.
Qed.

Lemma resolved_values_are_silent_witness :
  fst (invoke (always (ok_with (tasks_envelope two_tasks)))
         (Call_getTaskInfo (JStr "dbid_100") JUndefined)
         (world_of logged_in_nas)) <> inr JUndefined /\
  console (snd (invoke (always (ok_with (tasks_envelope two_tasks)))
                  (Call_getTaskInfo (JStr "dbid_100") JUndefined)
                  (world_of logged_in_nas))) = [].
Proof.
  assert (fst (invoke (always (ok_with (tasks_envelope two_tasks)))
                 (Call_getTaskInfo (JStr "dbid_100") JUndefined)
                 (world_of logged_in_nas)) <> inr JUndefined) as Hne
    by (vm_compute; discriminate).
  split; [exact Hne |].
  exact (resolved_values_are_silent _ _ _ Hne).
Defined.
